(** * The [Debug] status component (views/Status/components/Debug/Debug.js)

  A shallow embedding of the React class component [Debug] and a
  verification of its observable contract: what [render] puts in the
  element tree, and what the two click handlers ask of the action layer.

  The component is written in an untyped language, so the embedding keeps
  the property bag [this.props] as a JavaScript value: reading a property
  of [undefined] throws, an [||] tests truthiness, and [.map] is only
  there on arrays.  The typed records [DebugState] and [ActionSet] are the
  shapes announced by [propTypes]; [mount] builds the instance the host
  framework hands to the methods. *)

From Stdlib Require Import String List ZArith Bool Arith.
Import ListNotations.
Set Warnings "-register-all".
Local Open Scope string_scope.
Local Open Scope list_scope.

(* ================================================================== *)
(** ** JavaScript values *)
(* ================================================================== *)

Module Js.

(** The values a property bag can hold.  Numbers are the integer-valued
    ones and [NaN] (enough to decide truthiness); a function is an opaque
    callable of the surrounding application, known by a name; arrays are
    dense; objects are plain, with their own properties in order. *)
Inductive value : Type :=
| VUndefined
| VNull
| VBool (b : bool)
| VNum (n : Z)
| VNaN
| VStr (s : string)
| VFun (name : string)
| VArr (items : list value)
| VObj (fields : list (string * value)).

(** ToBoolean. *)
Definition truthy (v : value) : bool :=
  match v with
  | VUndefined | VNull | VNaN => false
  | VBool b => b
  | VNum n => negb (Z.eqb n 0)
  | VStr s => negb (String.eqb s "")
  | VFun _ | VArr _ | VObj _ => true
  end.

(** [!v] *)
Definition js_not (v : value) : value := VBool (negb (truthy v)).

(** [a || b], with [b] free of effects. *)
Definition js_or (a b : value) : value := if truthy a then a else b.

Fixpoint own_property (fields : list (string * value)) (k : string)
  : option value :=
  match fields with
  | [] => None
  | (k', v) :: rest => if String.eqb k' k then Some v else own_property rest k
  end.

(** [v.k] for a [v] that is neither [undefined] nor [null], and for a
    name [k] that no prototype defines (every name this component reads,
    [map] apart, which [array_map] below treats). *)
Definition field (v : value) (k : string) : value :=
  match v with
  | VObj fields =>
      match own_property fields k with
      | Some x => x
      | None => VUndefined
      end
  | _ => VUndefined
  end.

Definition is_func (v : value) : bool :=
  match v with VFun _ => true | _ => false end.
Definition is_string (v : value) : bool :=
  match v with VStr _ => true | _ => false end.
Definition is_bool (v : value) : bool :=
  match v with VBool _ => true | _ => false end.
Definition is_object (v : value) : bool :=
  match v with VObj _ => true | _ => false end.
Definition is_array_of (p : value -> bool) (v : value) : bool :=
  match v with VArr items => forallb p items | _ => false end.
(** A checker that is not marked required lets [undefined] and [null]
    through. *)
Definition optional (p : value -> bool) (v : value) : bool :=
  match v with VUndefined | VNull => true | _ => p v end.

End Js.
Export Js.

(* ================================================================== *)
(** ** Method bodies: instance, calls made, and how the body ends *)
(* ================================================================== *)

Module Eff.

(** What a method body can read through [this]: the property bag and the
    component's own state slot. *)
Record instance : Type := Instance { props : value; state : value }.

(** A call of an external callable, with its arguments. *)
Inductive event : Type := Call (callee : string) (args : list value).

(** A body returns, throws a [TypeError], or hands control to a method
    that the caller put on a non-array [logs] object and whose result the
    body would go on to use ([Foreign]): what happens then is decided by
    code outside this repository. *)
Inductive outcome (A : Type) : Type :=
| Returned (a : A)
| TypeError
| Foreign.
Arguments Returned {A} a.
Arguments TypeError {A}.
Arguments Foreign {A}.

Record run (A : Type) : Type :=
  Run { final : instance; trace : list event; result : outcome A }.
Arguments Run {A} final trace result.
Arguments final {A} r.
Arguments trace {A} r.
Arguments result {A} r.

Definition M (A : Type) : Type := instance -> run A.

Definition ret {A} (a : A) : M A := fun i => Run i [] (Returned a).

Definition bind {A B} (m : M A) (k : A -> M B) : M B :=
  fun i =>
    let r := m i in
    match result r with
    | Returned a =>
        let r' := k a (final r) in
        Run (final r') (trace r ++ trace r') (result r')
    | TypeError => Run (final r) (trace r) TypeError
    | Foreign => Run (final r) (trace r) Foreign
    end.

Definition throw {A} : M A := fun i => Run i [] TypeError.
Definition foreign {A} : M A := fun i => Run i [] Foreign.

(** [this.props] *)
Definition this_props : M value := fun i => Run i [] (Returned (props i)).

(** [v.k] *)
Definition get (v : value) (k : string) : M value :=
  match v with
  | VUndefined | VNull => throw
  | _ => ret (field v k)
  end.

(** [f(args);] as a statement: the callable is assumed to come back, and
    what it returns is dropped. *)
Definition call (f : value) (args : list value) : M unit :=
  match f with
  | VFun name => fun i => Run i [Call name args] (Returned tt)
  | _ => throw
  end.

End Eff.
Export Eff.

Declare Scope eff_scope.
Delimit Scope eff_scope with eff.
Notation "x <- m ;; k" := (bind m (fun x => k))
(at level 100, m at next level, right associativity) : eff_scope.
Local Open Scope eff_scope.

(* ================================================================== *)
(** ** Element trees *)
(* ================================================================== *)

Module React.

(** What stands in tag position: a host tag, or one of the imported
    components. *)
Inductive etype : Type :=
| Host (tag : string)
| Container
| ContainerTitle
| AvPause
| AvPlay
| AvReplay.

(** The two bound methods that are passed as [onClick]. *)
Inductive handler : Type := ThisToggle | ThisClear.

(** An attribute is a string literal, a class of the imported style sheet
    ([styles.cls]) or a handler. *)
Inductive attr : Type :=
| Lit (s : string)
| Style (cls : string)
| OnClick (h : handler).

(** A JSX element (with its [key] as written), a [{ expression }] child
    holding a value, or an array of nodes in child position. *)
Inductive node : Type :=
| Element (type : etype) (key : option nat)
          (attrs : list (string * attr)) (children : list node)
| Expr (v : value)
| Fragment (items : list node).

Definition children_of (n : node) : list node :=
  match n with
  | Element _ _ _ cs => cs
  | Fragment cs => cs
  | Expr _ => []
  end.

Definition child_at (k : nat) (n : node) : option node :=
  nth_error (children_of n) k.

Definition type_of (n : node) : option etype :=
  match n with Element t _ _ _ => Some t | _ => None end.

Fixpoint attr_lookup (attrs : list (string * attr)) (k : string)
  : option attr :=
  match attrs with
  | [] => None
  | (k', a) :: rest => if String.eqb k' k then Some a else attr_lookup rest k
  end.

Definition attr_of (n : node) (k : string) : option attr :=
  match n with
  | Element _ _ attrs _ => attr_lookup attrs k
  | _ => None
  end.

(** [Array.prototype.map] with its [(item, index)] callback. *)
Fixpoint mapi_from {A B} (f : A -> nat -> B) (start : nat) (l : list A)
  : list B :=
  match l with
  | [] => []
  | x :: rest => f x start :: mapi_from f (S start) rest
  end.

(** [recv.map(cb)] for a callback that only builds a node.  On an array
    it is the built-in; anywhere else [map] is an ordinary property. *)
Definition array_map (recv : value) (cb : value -> nat -> node)
  : M (list node) :=
  match recv with
  | VArr items => ret (mapi_from cb 0 items)
  | _ =>
      m <- get recv "map" ;;
      match m with
      | VFun _ => foreign
      | _ => throw
      end
  end.

End React.
Export React.

(* ================================================================== *)
(** ** The component *)
(* ================================================================== *)

Module DebugComponent.

(** [renderLogs]: one [<pre>] per entry of [statusDebug.logs], keyed by
    its index, holding the entry itself. *)
Definition renderLogs : M (list node) :=
  p <- this_props ;;
  statusDebug <- get p "statusDebug" ;;
  logs <- get statusDebug "logs" ;;
  array_map logs (fun log idx =>
    Element (Host "pre") (Some idx) [("className", Style "log")]
      [Expr log]).

(** [renderActions]: the toggle link, then the clear link. *)
Definition renderActions : M node :=
  p <- this_props ;;
  statusDebug <- get p "statusDebug" ;;
  logging <- get statusDebug "logging" ;;
  let toggleButton :=
    if truthy logging
    then Element AvPause None [] []
    else Element AvPlay None [] [] in
  ret (Element (Host "div") None [("className", Style "actions")]
         [ Element (Host "a") None [("onClick", OnClick ThisToggle)]
             [toggleButton];
           Element (Host "a") None [("onClick", OnClick ThisClear)]
             [Element AvReplay None [] []] ]).

(** [render]: children are evaluated left to right. *)
Definition render : M node :=
  actions <- renderActions ;;
  p <- this_props ;;
  statusDebug <- get p "statusDebug" ;;
  levels <- get statusDebug "levels" ;;
  logs <- renderLogs ;;
  ret (Element Container None []
         [ Element ContainerTitle None [("title", Lit "Node Logs")] [];
           actions;
           Element (Host "h2") None [("className", Style "subheader")]
             [Expr (js_or levels (VStr "-"))];
           Element (Host "div") None [("className", Style "logs")]
             [Fragment logs] ]).

(** [clear = () => { this.props.actions.removeDevLogs(); }] *)
Definition clear : M unit :=
  p <- this_props ;;
  actions <- get p "actions" ;;
  f <- get actions "removeDevLogs" ;;
  call f [].

(** [toggle = () => { this.props.actions.updateDevLogging(!this.props.statusDebug.logging); }]
    The callee is read before the argument is evaluated. *)
Definition toggle : M unit :=
  p <- this_props ;;
  actions <- get p "actions" ;;
  f <- get actions "updateDevLogging" ;;
  p' <- this_props ;;
  statusDebug <- get p' "statusDebug" ;;
  logging <- get statusDebug "logging" ;;
  call f [js_not logging].

(** The method a handler attribute stands for. *)
Definition invoke (h : handler) : M unit :=
  match h with
  | ThisToggle => toggle
  | ThisClear => clear
  end.

(** A click on a node runs its [onClick], if it has one. *)
Definition activate (n : node) : M unit :=
  match attr_of n "onClick" with
  | Some (OnClick h) => invoke h
  | _ => ret tt
  end.

(** [k] clicks in a row on the same node, the instance being passed on
    from one to the next. *)
Fixpoint activate_times (k : nat) (n : node) : M unit :=
  match k with
  | O => ret tt
  | S k' => _ <- activate n ;; activate_times k' n
  end.

(** *** The announced shapes ([propTypes]) *)

Record DebugState : Type :=
  { levels : string; logging : bool; logs : list string }.

(** The two callables, by the names the events carry. *)
Record ActionSet : Type :=
  { removeDevLogs : string; updateDevLogging : string }.

(** The object literals behind the two properties, for any member values. *)
Definition statusDebug_of (lv lg lgs : value) : value :=
  VObj [ ("levels", lv); ("logging", lg); ("logs", lgs) ].

Definition props_of (acts sd : value) : value :=
  VObj [ ("actions", acts); ("statusDebug", sd) ].

Definition statusDebug_value (st : DebugState) : value :=
  statusDebug_of (VStr (levels st)) (VBool (logging st))
                 (VArr (map VStr (logs st))).

Definition actions_value (a : ActionSet) : value :=
  VObj [ ("removeDevLogs", VFun (removeDevLogs a));
         ("updateDevLogging", VFun (updateDevLogging a)) ].

Definition props_value (st : DebugState) (a : ActionSet) : value :=
  props_of (actions_value a) (statusDebug_value st).

(** The instance the framework builds around a property bag; the class
    initialises no state of its own, so the slot holds [null]. *)
Definition mount_props (p : value) : instance :=
  {| props := p; state := VNull |}.

(** [<Debug actions={ a } statusDebug={ st } />] *)
Definition mount (st : DebugState) (a : ActionSet) : instance :=
  mount_props (props_value st a).

(** The tree of a render pass that returned. *)
Definition rendered (i : instance) : option node :=
  match result (render i) with
  | Returned t => Some t
  | _ => None
  end.

(** [propTypes], as a check on the property bag: both shapes required,
    every listed member required and of the listed type, members that are
    not listed allowed.  The entries of [logs] are checked by a plain
    [PropTypes.string], which is not marked required. *)
Definition well_formed (p : value) : bool :=
  is_object (field p "actions")
  && is_func (field (field p "actions") "removeDevLogs")
  && is_func (field (field p "actions") "updateDevLogging")
  && is_object (field p "statusDebug")
  && is_string (field (field p "statusDebug") "levels")
  && is_bool (field (field p "statusDebug") "logging")
  && is_array_of (optional is_string) (field (field p "statusDebug") "logs").

(** *** Where things are in the rendered tree *)

Definition and_then {A B} (o : option A) (f : A -> option B) : option B :=
  match o with Some a => f a | None => None end.

Definition actions_row (t : node) : option node := child_at 1 t.
Definition toggle_control (t : node) : option node :=
  and_then (actions_row t) (child_at 0).
Definition clear_control (t : node) : option node :=
  and_then (actions_row t) (child_at 1).
Definition glyph (control : node) : option etype :=
  and_then (child_at 0 control) type_of.
Definition subheading (t : node) : option node :=
  and_then (child_at 2 t) (child_at 0).
Definition log_blocks (t : node) : option (list node) :=
  option_map children_of (and_then (child_at 3 t) (child_at 0)).
Definition block_text (b : node) : option node := child_at 0 b.

End DebugComponent.
Export DebugComponent.

(* ================================================================== *)
(** ** Sample inputs and the notions the statements use *)
(* ================================================================== *)

Definition sample_actions : ActionSet :=
  {| removeDevLogs := "removeDevLogs"; updateDevLogging := "updateDevLogging" |}.

Definition streaming_state : DebugState :=
  {| levels := "INFO,ERROR"; logging := true; logs := ["a"; "b"] |}.

Definition idle_state : DebugState :=
  {| levels := ""; logging := false; logs := [] |}.

(** The values a property can be read from. *)
Definition readable (v : value) : bool :=
  match v with VUndefined | VNull => false | _ => true end.

(** A body is _read-only_ when it hands the instance back as it got it and
    its calls and outcome are a function of the property bag alone. *)
Definition read_only {A} (m : M A) : Prop :=
  forall i,
    final (m i) = i /\
    forall j, props j = props i ->
      trace (m j) = trace (m i) /\ result (m j) = result (m i).

(** A body is _silent_ when it calls nothing. *)
Definition silent {A} (m : M A) : Prop := forall i, trace (m i) = [].

(** What a handler may call: nothing (it threw first), or the callable
    found under [name] in [this.props.actions], once, with [args]. *)
Definition calls_only {A} (m : M A) (name : string)
           (args : instance -> list value) : Prop :=
  forall i,
    trace (m i) = []
    \/ exists f,
         field (field (props i) "actions") name = VFun f
         /\ trace (m i) = [Call f (args i)].

(** The [<pre>] that [renderLogs] builds for one entry. *)
Definition log_block (log : value) (idx : nat) : node :=
  Element (Host "pre") (Some idx) [("className", Style "log")] [Expr log].

(* ================================================================== *)
(** ** Notions for the properties beyond the contract *)
(* ================================================================== *)





(** How [recv.map(cb)] ends, for the callback of [renderLogs]. *)
Definition map_outcome (recv : value) : outcome (list node) :=
  match recv with
  | VArr items => Returned (mapi_from log_block 0 items)
  | _ => if is_func (field recv "map") then Foreign else TypeError
  end.

(** The actions row for a [logging] that is truthy ([on]) or not. *)
Definition actions_row_for (on : bool) : node :=
  Element (Host "div") None [("className", Style "actions")]
    [ Element (Host "a") None [("onClick", OnClick ThisToggle)]
        [Element (if on then AvPause else AvPlay) None [] []];
      Element (Host "a") None [("onClick", OnClick ThisClear)]
        [Element AvReplay None [] []] ].

(** The whole panel around a subheading value and a list of blocks. *)
Definition panel (on : bool) (lv : value) (blocks : list node) : node :=
  Element Container None []
    [ Element ContainerTitle None [("title", Lit "Node Logs")] [];
      actions_row_for on;
      Element (Host "h2") None [("className", Style "subheader")]
        [Expr (js_or lv (VStr "-"))];
      Element (Host "div") None [("className", Style "logs")]
        [Fragment blocks] ].

(** A property bag with members beyond the announced ones, in another
    order, and a [null] among the log entries. *)
Definition crowded_props : value :=
  VObj [ ("route", VStr "/status");
         ("statusDebug",
          VObj [ ("logs", VArr [VStr "a"; VNull; VStr "c"]);
                 ("updated", VNum 12);
                 ("logging", VBool true);
                 ("levels", VStr "TRACE") ]);
         ("actions",
          VObj [ ("updateDevLogging", VFun "upd");
                 ("removeDevLogs", VFun "rm");
                 ("refresh", VFun "refresh") ]) ].

(** A bag outside the announced shape that still renders: no [actions],
    a number for [levels], a number for [logging]. *)
Definition lax_props : value :=
  VObj [ ("statusDebug",
          VObj [ ("levels", VNum 0);
                 ("logging", VNum 1);
                 ("logs", VArr [VStr "x"]) ]) ].

(** Clicks one after the other, each running the method its handler
    stands for. *)
Fixpoint invoke_all (hs : list handler) : M unit :=
  match hs with
  | [] => ret tt
  | h :: rest => _ <- invoke h ;; invoke_all rest
  end.

(** What one click asks of the action layer under a given snapshot. *)
Definition request (st : DebugState) (a : ActionSet) (h : handler) : event :=
  match h with
  | ThisToggle => Call (updateDevLogging a) [VBool (negb (logging st))]
  | ThisClear => Call (removeDevLogs a) []
  end.

(* ================================================================== *)
(** ** Running a body one bind at a time *)
(* ================================================================== *)

Lemma bind_this_props {B} (k : value -> M B) i :
  (p <- this_props ;; k p) i = k (props i) i.
Proof. unfold bind, this_props. simpl. now destruct (k (props i) i). Qed.

Lemma bind_get {B} v key (k : value -> M B) i :
  (x <- get v key ;; k x) i
  = if readable v then k (field v key) i else Run i [] TypeError.
Proof.
  destruct v; unfold bind; simpl; try reflexivity;
    match goal with |- context [k ?x i] => now destruct (k x i) end.
Qed.

Lemma bind_returned {A B} (m : M A) (k : A -> M B) i a :
  m i = Run i [] (Returned a) -> (x <- m ;; k x) i = k a i.
Proof. intros H. unfold bind. rewrite H. simpl. now destruct (k a i). Qed.

Lemma call_trace f args i :
  trace (call f args i) = []
  \/ exists name, f = VFun name /\ trace (call f args i) = [Call name args].
Proof. destruct f; simpl; eauto. Qed.

(* ================================================================== *)
(** ** Method bodies that only read [this.props] *)
(* ================================================================== *)

Lemma read_only_ret {A} (a : A) : read_only (ret a).
Proof. intros i; split; [reflexivity | intros j _; split; reflexivity]. Qed.

Lemma read_only_throw {A} : read_only (@throw A).
Proof. intros i; split; [reflexivity | intros j _; split; reflexivity]. Qed.

Lemma read_only_foreign {A} : read_only (@foreign A).
Proof. intros i; split; [reflexivity | intros j _; split; reflexivity]. Qed.

Lemma read_only_this_props : read_only this_props.
Proof.
  intros i; split; [reflexivity | intros j Hj; split; simpl; congruence].
Qed.

Lemma read_only_get v k : read_only (get v k).
Proof.
  destruct v; simpl; first [apply read_only_throw | apply read_only_ret].
Qed.

Lemma read_only_call f args : read_only (call f args).
Proof.
  destruct f; simpl; try apply read_only_throw.
  intros i; split; [reflexivity | intros j _; split; reflexivity].
Qed.

Lemma read_only_bind {A B} (m : M A) (k : A -> M B) :
  read_only m -> (forall a, read_only (k a)) -> read_only (bind m k).
Proof.
  intros Hm Hk i.
  destruct (Hm i) as [Hfi Hi].
  split.
  - unfold bind. destruct (result (m i)) as [a| |]; simpl; auto.
    rewrite Hfi. apply (Hk a i).
  - intros j Hj.
    destruct (Hi j Hj) as [Ht Hr].
    destruct (Hm j) as [Hfj _].
    unfold bind. rewrite Hr.
    destruct (result (m i)) as [a| |]; simpl; auto.
    rewrite Hfi, Hfj, Ht.
    destruct (Hk a i) as [_ Hki].
    destruct (Hki j Hj) as [Hkt Hkr].
    rewrite Hkt, Hkr. split; reflexivity.
Qed.

Lemma read_only_same_props {A} (m : M A) i j :
  read_only m -> props i = props j ->
  trace (m i) = trace (m j) /\ result (m i) = result (m j).
Proof. intros Hm Hp. destruct (Hm j) as [_ Hj]. exact (Hj i Hp). Qed.

Lemma read_only_twice {A} (m : M A) i :
  read_only m -> result ((_ <- m ;; m) i) = result (m i).
Proof.
  intros Hm. destruct (Hm i) as [Hf _]. unfold bind.
  destruct (result (m i)) eqn:E; cbn [result]; try reflexivity.
  rewrite Hf. exact E.
Qed.

Lemma silent_ret {A} (a : A) : silent (ret a).
Proof. intros i; reflexivity. Qed.

Lemma silent_throw {A} : silent (@throw A).
Proof. intros i; reflexivity. Qed.

Lemma silent_foreign {A} : silent (@foreign A).
Proof. intros i; reflexivity. Qed.

Lemma silent_this_props : silent this_props.
Proof. intros i; reflexivity. Qed.

Lemma silent_get v k : silent (get v k).
Proof. destruct v; intros i; reflexivity. Qed.

Lemma silent_bind {A B} (m : M A) (k : A -> M B) :
  silent m -> (forall a, silent (k a)) -> silent (bind m k).
Proof.
  intros Hm Hk i. unfold bind.
  destruct (result (m i)) as [a| |]; simpl; rewrite ?Hm; auto.
  apply Hk.
Qed.

Create HintDb frame discriminated.
#[export] Hint Resolve read_only_ret read_only_throw read_only_foreign
  read_only_this_props read_only_get read_only_call : frame.
#[export] Hint Resolve silent_ret silent_throw silent_foreign
  silent_this_props silent_get : frame.

(** Walks a body along its binds. *)
Ltac frame :=
  repeat first
    [ apply read_only_bind; [ | intro ]
    | apply silent_bind; [ | intro ]
    | match goal with
      | |- context [match ?v with _ => _ end] => destruct v
      | |- context [if ?b then _ else _] => destruct b
      end
    | solve [ auto with frame ] ].

Lemma read_only_array_map recv cb : read_only (array_map recv cb).
Proof. unfold array_map. destruct recv; frame. Qed.

Lemma silent_array_map recv cb : silent (array_map recv cb).
Proof. unfold array_map. destruct recv; frame. Qed.

#[export] Hint Resolve read_only_array_map silent_array_map : frame.

Lemma read_only_renderLogs : read_only renderLogs.
Proof. unfold renderLogs. frame. Qed.

Lemma read_only_renderActions : read_only renderActions.
Proof. unfold renderActions. frame. Qed.

Lemma silent_renderLogs : silent renderLogs.
Proof. unfold renderLogs. frame. Qed.

Lemma silent_renderActions : silent renderActions.
Proof. unfold renderActions. frame. Qed.

#[export] Hint Resolve read_only_renderLogs read_only_renderActions
  silent_renderLogs silent_renderActions : frame.

Lemma read_only_render : read_only render.
Proof. unfold render. frame. Qed.

Lemma silent_render : silent render.
Proof. unfold render. frame. Qed.

Lemma read_only_clear : read_only clear.
Proof. unfold clear. frame. Qed.

Lemma read_only_toggle : read_only toggle.
Proof. unfold toggle. frame. Qed.

Lemma read_only_activate n : read_only (activate n).
Proof.
  unfold activate.
  destruct (attr_of n "onClick") as [[s|c|[|]]|]; simpl;
    first [apply read_only_toggle | apply read_only_clear | apply read_only_ret].
Qed.

(* ================================================================== *)
(** ** [Array.prototype.map] keeps length, order and index *)
(* ================================================================== *)

Lemma mapi_from_length {A B} (f : A -> nat -> B) (l : list A) :
  forall start, length (mapi_from f start l) = length l.
Proof.
  induction l as [|x rest IH]; intros start; simpl; [reflexivity|].
  now rewrite IH.
Qed.

Lemma mapi_from_nth {A B} (f : A -> nat -> B) (l : list A) :
  forall start k,
    nth_error (mapi_from f start l) k
    = option_map (fun x => f x (start + k)) (nth_error l k).
Proof.
  induction l as [|x rest IH]; intros start [|k]; simpl; try reflexivity.
  - now rewrite Nat.add_0_r.
  - rewrite IH. now rewrite Nat.add_succ_r.
Qed.

Lemma mapi_from_map {A B C} (g : B -> C) (f : A -> nat -> B) (h : A -> C)
      (l : list A) :
  (forall x k, g (f x k) = h x) ->
  forall start, map g (mapi_from f start l) = map h l.
Proof.
  intros Hgf. induction l as [|x rest IH]; intros start; simpl; [reflexivity|].
  now rewrite Hgf, IH.
Qed.

(* ================================================================== *)
(** ** One render pass over announced-shape properties *)
(* ================================================================== *)

Lemma renderLogs_mount st a :
  renderLogs (mount st a)
  = Run (mount st a) [] (Returned (mapi_from log_block 0 (map VStr (logs st)))).
Proof. reflexivity. Qed.

Lemma renderActions_mount st a :
  renderActions (mount st a)
  = Run (mount st a) []
      (Returned
         (Element (Host "div") None [("className", Style "actions")]
            [ Element (Host "a") None [("onClick", OnClick ThisToggle)]
                [Element (if logging st then AvPause else AvPlay) None [] []];
              Element (Host "a") None [("onClick", OnClick ThisClear)]
                [Element AvReplay None [] []] ])).
Proof. destruct st as [lv [|] lines]; reflexivity. Qed.

Lemma rendered_mount_with (lv : value) (lg : bool) (lines : list string) acts :
  rendered (mount_props (props_of acts
              (statusDebug_of lv (VBool lg) (VArr (map VStr lines)))))
  = Some
      (Element Container None []
         [ Element ContainerTitle None [("title", Lit "Node Logs")] [];
           Element (Host "div") None [("className", Style "actions")]
             [ Element (Host "a") None [("onClick", OnClick ThisToggle)]
                 [Element (if lg then AvPause else AvPlay) None [] []];
               Element (Host "a") None [("onClick", OnClick ThisClear)]
                 [Element AvReplay None [] []] ];
           Element (Host "h2") None [("className", Style "subheader")]
             [Expr (js_or lv (VStr "-"))];
           Element (Host "div") None [("className", Style "logs")]
             [Fragment (mapi_from log_block 0 (map VStr lines))] ]).
Proof. destruct lg; reflexivity. Qed.

Lemma rendered_mount st a :
  rendered (mount st a)
  = Some
      (Element Container None []
         [ Element ContainerTitle None [("title", Lit "Node Logs")] [];
           Element (Host "div") None [("className", Style "actions")]
             [ Element (Host "a") None [("onClick", OnClick ThisToggle)]
                 [Element (if logging st then AvPause else AvPlay) None [] []];
               Element (Host "a") None [("onClick", OnClick ThisClear)]
                 [Element AvReplay None [] []] ];
           Element (Host "h2") None [("className", Style "subheader")]
             [Expr (js_or (VStr (levels st)) (VStr "-"))];
           Element (Host "div") None [("className", Style "logs")]
             [Fragment (mapi_from log_block 0 (map VStr (logs st)))] ]).
Proof. apply rendered_mount_with. Qed.

Lemma toggle_mount st a :
  toggle (mount st a)
  = Run (mount st a)
        [Call (updateDevLogging a) [VBool (negb (logging st))]]
        (Returned tt).
Proof. reflexivity. Qed.

Lemma clear_mount_any (sd : value) a :
  clear (mount_props (props_of (actions_value a) sd))
  = Run (mount_props (props_of (actions_value a) sd))
        [Call (removeDevLogs a) []] (Returned tt).
Proof. reflexivity. Qed.

Lemma well_formed_props_value st a : well_formed (props_value st a) = true.
Proof.
  unfold well_formed. simpl.
  induction (logs st) as [|l rest IH]; simpl; auto.
Qed.

Lemma well_formed_shape p :
  well_formed p = true ->
  readable p = true
  /\ readable (field p "statusDebug") = true
  /\ exists items, field (field p "statusDebug") "logs" = VArr items.
Proof.
  unfold well_formed. intros H.
  repeat (apply andb_prop in H; destruct H as [H ?]).
  repeat split.
  - destruct p; try discriminate; reflexivity.
  - destruct (field p "statusDebug"); try discriminate; reflexivity.
  - destruct (field (field p "statusDebug") "logs") as [| | | | | | |items|];
      try discriminate.
    now exists items.
Qed.

Lemma renderActions_returns i :
  well_formed (props i) = true ->
  exists row, renderActions i = Run i [] (Returned row).
Proof.
  intros H. destruct (well_formed_shape _ H) as (Hp & Hsd & _).
  unfold renderActions.
  rewrite bind_this_props, bind_get, Hp, bind_get, Hsd.
  eexists. reflexivity.
Qed.

Lemma renderLogs_returns i :
  well_formed (props i) = true ->
  exists blocks, renderLogs i = Run i [] (Returned blocks).
Proof.
  intros H. destruct (well_formed_shape _ H) as (Hp & Hsd & items & Hlogs).
  unfold renderLogs.
  rewrite bind_this_props, bind_get, Hp, bind_get, Hsd, Hlogs.
  eexists. reflexivity.
Qed.

Lemma clear_calls_only : calls_only clear "removeDevLogs" (fun _ => []).
Proof.
  intros i. unfold clear.
  rewrite bind_this_props, bind_get.
  destruct (readable (props i)); [|now left].
  rewrite bind_get.
  destruct (readable (field (props i) "actions")); [|now left].
  apply call_trace.
Qed.

Lemma toggle_calls_only :
  calls_only toggle "updateDevLogging"
    (fun i => [js_not (field (field (props i) "statusDebug") "logging")]).
Proof.
  intros i. unfold toggle.
  rewrite bind_this_props, bind_get.
  destruct (readable (props i)) eqn:Ep; [|now left].
  rewrite bind_get.
  destruct (readable (field (props i) "actions")); [|now left].
  rewrite bind_this_props, bind_get, Ep, bind_get.
  destruct (readable (field (props i) "statusDebug")); [|now left].
  apply call_trace.
Qed.

(* ================================================================== *)
(** ** Sample runs *)
(* ================================================================== *)

(** A streaming panel with two lines: subheading, pause glyph, two blocks. *)
Example streaming_panel :
  and_then (rendered (mount streaming_state sample_actions)) subheading
  = Some (Expr (VStr "INFO,ERROR"))
  /\ and_then
       (and_then (rendered (mount streaming_state sample_actions))
                 toggle_control) glyph
     = Some AvPause
  /\ option_map (map block_text)
       (and_then (rendered (mount streaming_state sample_actions)) log_blocks)
     = Some [Some (Expr (VStr "a")); Some (Expr (VStr "b"))].
Proof. repeat split. Qed.

(** An idle, empty panel: a dash, the play glyph, no block. *)
Example idle_panel :
  and_then (rendered (mount idle_state sample_actions)) subheading
  = Some (Expr (VStr "-"))
  /\ and_then
       (and_then (rendered (mount idle_state sample_actions))
                 toggle_control) glyph
     = Some AvPlay
  /\ and_then (rendered (mount idle_state sample_actions)) log_blocks
     = Some [].
Proof. repeat split. Qed.

(** Outside the announced shape the bodies do throw: no [statusDebug],
    or a [logs] that is a string. *)
Example render_without_statusDebug :
  render (mount_props (VObj [("actions", actions_value sample_actions)]))
  = Run (mount_props (VObj [("actions", actions_value sample_actions)]))
        [] TypeError.
Proof. reflexivity. Qed.

Example renderLogs_on_string :
  result
    (renderLogs
       (mount_props
          (props_of (actions_value sample_actions)
             (statusDebug_of (VStr "INFO") (VBool true) (VStr "a")))))
  = TypeError.
Proof. reflexivity. Qed.

Example toggle_without_actions :
  toggle (mount_props (VObj [("statusDebug", statusDebug_value idle_state)]))
  = Run (mount_props (VObj [("statusDebug", statusDebug_value idle_state)]))
        [] TypeError.
Proof. reflexivity. Qed.

(* ================================================================== *)
(** ** The contract *)
(* ================================================================== *)

(** C1. For every [DebugState], the toggle control of the rendered tree
    (the first link of the actions row, whose [onClick] is [this.toggle])
    shows the pause glyph when [logging] is [true] and the play glyph when
    it is [false]. *)
Theorem toggle_glyph_follows_logging (st : DebugState) (a : ActionSet) :
  exists c,
    and_then (rendered (mount st a)) toggle_control = Some c
    /\ type_of c = Some (Host "a")
    /\ attr_of c "onClick" = Some (OnClick ThisToggle)
    /\ glyph c = Some (if logging st then AvPause else AvPlay)
    /\ children_of c
       = [Element (if logging st then AvPause else AvPlay) None [] []].
Proof.
  rewrite rendered_mount. eexists. split; [reflexivity|].
  repeat split.
Qed.

(** C2. For every sequence of log lines, the rendered log list has exactly
    one block per line, in the same order, and the text of each block is
    the corresponding line itself; each block is a [<pre>] keyed by the
    line's index. *)
Theorem log_list_verbatim (st : DebugState) (a : ActionSet) :
  exists blocks,
    and_then (rendered (mount st a)) log_blocks = Some blocks
    /\ length blocks = length (logs st)
    /\ map block_text blocks
       = map (fun line => Some (Expr (VStr line))) (logs st)
    /\ forall k,
         nth_error blocks k
         = option_map
             (fun line =>
                Element (Host "pre") (Some k) [("className", Style "log")]
                  [Expr (VStr line)])
             (nth_error (logs st) k).
Proof.
  rewrite rendered_mount.
  exists (mapi_from log_block 0 (map VStr (logs st))).
  split; [reflexivity|].
  split; [|split].
  - now rewrite mapi_from_length, length_map.
  - rewrite (mapi_from_map block_text log_block (fun v => Some (Expr v)))
      by reflexivity.
    now rewrite map_map.
  - intros k. rewrite mapi_from_nth, nth_error_map. simpl.
    destruct (nth_error (logs st) k); reflexivity.
Qed.

(** C3. For every [DebugState], the subheading holds exactly ["-"] when
    [levels] is the empty string and [levels] itself otherwise; and were
    [levels] any other JavaScript value, the subheading would hold ["-"]
    when that value is falsy and the value itself otherwise. *)
Theorem subheading_dash_or_levels (st : DebugState) (a : ActionSet) :
  and_then (rendered (mount st a)) subheading
  = Some (Expr (VStr (if String.eqb (levels st) "" then "-" else levels st)))
  /\ forall lv : value,
       and_then
         (rendered (mount_props (props_of (actions_value a)
            (statusDebug_of lv (VBool (logging st))
                            (VArr (map VStr (logs st)))))))
         subheading
       = Some (Expr (if truthy lv then lv else VStr "-")).
Proof.
  split.
  - rewrite rendered_mount. unfold js_or. simpl.
    destruct (String.eqb (levels st) ""); reflexivity.
  - intros lv. rewrite rendered_mount_with. reflexivity.
Qed.

(** C4. For every [DebugState], a click on the toggle control calls
    [updateDevLogging] exactly once, with the negation of the current
    [logging], calls nothing else, and returns. *)
Theorem toggle_requests_negation (st : DebugState) (a : ActionSet) :
  exists c,
    and_then (rendered (mount st a)) toggle_control = Some c
    /\ activate c (mount st a)
       = Run (mount st a)
             [Call (updateDevLogging a) [VBool (negb (logging st))]]
             (Returned tt).
Proof.
  rewrite rendered_mount. eexists. split; [reflexivity|].
  apply toggle_mount.
Qed.

(** C5. A click on the clear control calls [removeDevLogs] exactly once,
    with no argument, and calls nothing else, whatever the current
    [DebugState]; the handler does so even when [statusDebug] is not of
    the announced shape. *)
Theorem clear_requests_removal (st : DebugState) (a : ActionSet) :
  (exists c,
     and_then (rendered (mount st a)) clear_control = Some c
     /\ activate c (mount st a)
        = Run (mount st a) [Call (removeDevLogs a) []] (Returned tt))
  /\ forall sd : value,
       clear (mount_props (props_of (actions_value a) sd))
       = Run (mount_props (props_of (actions_value a) sd))
             [Call (removeDevLogs a) []] (Returned tt).
Proof.
  split.
  - rewrite rendered_mount. eexists. split; reflexivity.
  - intros sd. apply clear_mount_any.
Qed.

(** C6. Rendering is a function of the properties alone: two instances
    with equal properties, whatever their state slots hold, produce the
    same outcome (the same tree) and the same calls; a render pass hands
    the instance back unchanged, so a second pass repeats the first. *)
Theorem render_deterministic (i j : instance) :
  props i = props j ->
  result (render i) = result (render j)
  /\ trace (render i) = trace (render j)
  /\ rendered i = rendered j
  /\ final (render i) = i
  /\ final (render j) = j
  /\ result ((_ <- render ;; render) i) = result (render i).
Proof.
  intros Hp.
  destruct (read_only_same_props render i j read_only_render Hp) as [Ht Hr].
  split; [exact Hr|].
  split; [exact Ht|].
  split; [unfold rendered; rewrite Hr; reflexivity|].
  split; [apply read_only_render|].
  split; [apply read_only_render|].
  apply read_only_twice, read_only_render.
Qed.

Lemma render_deterministic_witness :
  props (mount streaming_state sample_actions)
  = props {| props := props_value streaming_state sample_actions;
             state := VNum 7 |}
  /\ rendered (mount streaming_state sample_actions)
     = rendered {| props := props_value streaming_state sample_actions;
                   state := VNum 7 |}.
Proof.
  split; [reflexivity|].
  apply (render_deterministic
           (mount streaming_state sample_actions)
           {| props := props_value streaming_state sample_actions;
              state := VNum 7 |}).
  reflexivity.
Defined.

(** C7. Whatever the properties hold, a render pass and each handler hand
    the instance (so [levels], [logging] and [logs]) back unchanged; a
    render pass calls nothing; [clear] calls at most [removeDevLogs] and
    [toggle] at most [updateDevLogging], each as found in
    [this.props.actions] and at most once. *)
Theorem component_frame (i : instance) :
  (final (render i) = i /\ trace (render i) = [])
  /\ (final (renderActions i) = i /\ trace (renderActions i) = [])
  /\ (final (renderLogs i) = i /\ trace (renderLogs i) = [])
  /\ final (clear i) = i
  /\ final (toggle i) = i
  /\ (forall n, final (activate n i) = i)
  /\ (trace (clear i) = []
      \/ exists f,
           field (field (props i) "actions") "removeDevLogs" = VFun f
           /\ trace (clear i) = [Call f []])
  /\ (trace (toggle i) = []
      \/ exists f,
           field (field (props i) "actions") "updateDevLogging" = VFun f
           /\ trace (toggle i)
              = [Call f [js_not (field (field (props i) "statusDebug")
                                       "logging")]]).
Proof.
  repeat split.
  - apply read_only_render.
  - apply silent_render.
  - apply read_only_renderActions.
  - apply silent_renderActions.
  - apply read_only_renderLogs.
  - apply silent_renderLogs.
  - apply read_only_clear.
  - apply read_only_toggle.
  - intros n. apply read_only_activate.
  - apply clear_calls_only.
  - apply (toggle_calls_only i).
Qed.

(** C8. On properties of the announced shape ([propTypes] satisfied: both
    callables present, [levels] a string, [logging] a boolean, [logs] an
    array whose entries are strings), [render], [renderActions] and
    [renderLogs] each return: none throws. *)
Theorem render_total (i : instance) :
  well_formed (props i) = true ->
  (exists t, render i = Run i [] (Returned t))
  /\ (exists row, renderActions i = Run i [] (Returned row))
  /\ (exists blocks, renderLogs i = Run i [] (Returned blocks)).
Proof.
  intros H.
  destruct (renderActions_returns i H) as [row Hrow].
  destruct (renderLogs_returns i H) as [blocks Hblocks].
  destruct (well_formed_shape _ H) as (Hp & Hsd & _).
  split; [|split]; [|now exists row|now exists blocks].
  unfold render.
  rewrite (bind_returned _ _ _ _ Hrow).
  rewrite bind_this_props, bind_get, Hp, bind_get, Hsd.
  rewrite (bind_returned _ _ _ _ Hblocks).
  eexists. reflexivity.
Qed.

Lemma render_total_witness :
  well_formed (props (mount idle_state sample_actions)) = true
  /\ exists t,
       render (mount idle_state sample_actions)
       = Run (mount idle_state sample_actions) [] (Returned t).
Proof.
  split; [reflexivity|].
  apply (render_total (mount idle_state sample_actions)). reflexivity.
Defined.

(** C9. For every [DebugState], the clear control of the rendered tree
    (the second link of the actions row, whose [onClick] is [this.clear])
    shows the replay glyph: the control is the same node whatever
    [logging], [levels] and [logs] are. *)
Theorem clear_glyph_is_replay (st : DebugState) (a : ActionSet) :
  and_then (rendered (mount st a)) clear_control
  = Some (Element (Host "a") None [("onClick", OnClick ThisClear)]
            [Element AvReplay None [] []])
  /\ and_then (and_then (rendered (mount st a)) clear_control) glyph
     = Some AvReplay.
Proof. rewrite rendered_mount. split; reflexivity. Qed.

(** C10. Any number of clicks on the toggle control under one snapshot
    pass the same argument each time, the negation of the snapshot's
    [logging]: [k] clicks make [k] identical calls. *)
Theorem toggle_not_optimistic (st : DebugState) (a : ActionSet) (k : nat) :
  exists c,
    and_then (rendered (mount st a)) toggle_control = Some c
    /\ activate_times k c (mount st a)
       = Run (mount st a)
             (repeat (Call (updateDevLogging a) [VBool (negb (logging st))]) k)
             (Returned tt).
Proof.
  rewrite rendered_mount. eexists. split; [reflexivity|].
  induction k as [|k IH]; [reflexivity|].
  cbn [activate_times]. unfold bind at 1.
  change (activate _ (mount st a)) with (toggle (mount st a)).
  rewrite toggle_mount. cbn [result final trace].
  rewrite IH. reflexivity.
Qed.

(* ================================================================== *)
(** ** How each body ends, for any property bag *)
(* ================================================================== *)

Lemma bind_ended {A B} (m : M A) (k : A -> M B) i o :
  m i = Run i [] o ->
  (x <- m ;; k x) i
  = match o with
    | Returned a => k a i
    | TypeError => Run i [] TypeError
    | Foreign => Run i [] Foreign
    end.
Proof.
  intros H. unfold bind. rewrite H. simpl.
  destruct o as [a| |]; try reflexivity. now destruct (k a i).
Qed.

Lemma array_map_run recv i :
  array_map recv log_block i = Run i [] (map_outcome recv).
Proof.
  destruct recv; try reflexivity.
  unfold array_map, map_outcome. rewrite bind_get. simpl readable. cbv iota.
  destruct (field (VObj fields) "map"); reflexivity.
Qed.

Lemma renderActions_run i :
  renderActions i
  = Run i []
      (if readable (props i) && readable (field (props i) "statusDebug")
       then Returned
              (actions_row_for
                 (truthy (field (field (props i) "statusDebug") "logging")))
       else TypeError).
Proof.
  unfold renderActions. rewrite bind_this_props, bind_get.
  destruct (readable (props i)); [|reflexivity].
  rewrite bind_get.
  destruct (readable (field (props i) "statusDebug")); [|reflexivity].
  simpl andb. cbv iota. unfold ret, actions_row_for.
  destruct (truthy _); reflexivity.
Qed.

Lemma renderLogs_run i :
  renderLogs i
  = Run i []
      (if readable (props i) && readable (field (props i) "statusDebug")
       then map_outcome (field (field (props i) "statusDebug") "logs")
       else TypeError).
Proof.
  unfold renderLogs. rewrite bind_this_props, bind_get.
  destruct (readable (props i)); [|reflexivity].
  rewrite bind_get.
  destruct (readable (field (props i) "statusDebug")); [|reflexivity].
  apply array_map_run.
Qed.

Lemma render_run i :
  render i
  = Run i []
      (if readable (props i) && readable (field (props i) "statusDebug")
       then match map_outcome (field (field (props i) "statusDebug") "logs") with
            | Returned blocks =>
                Returned
                  (panel
                     (truthy (field (field (props i) "statusDebug") "logging"))
                     (field (field (props i) "statusDebug") "levels")
                     blocks)
            | TypeError => TypeError
            | Foreign => Foreign
            end
       else TypeError).
Proof.
  unfold render.
  rewrite (bind_ended _ _ _ _ (renderActions_run i)).
  destruct (readable (props i)) eqn:Ep; [|reflexivity].
  destruct (readable (field (props i) "statusDebug")) eqn:Esd; [|reflexivity].
  simpl andb. cbv iota.
  rewrite bind_this_props, bind_get, Ep, bind_get, Esd.
  assert (Hl := renderLogs_run i). rewrite Ep, Esd in Hl. simpl andb in Hl.
  cbv iota in Hl.
  rewrite (bind_ended _ _ _ _ Hl).
  destruct (map_outcome _); reflexivity.
Qed.

Lemma field_unreadable v k : readable v = false -> field v k = VUndefined.
Proof. destruct v; try discriminate; reflexivity. Qed.

Lemma call_not_func f args i :
  is_func f = false -> call f args i = Run i [] TypeError.
Proof. destruct f; try discriminate; reflexivity. Qed.


Lemma toggle_run i :
  toggle i
  = if is_func (field (field (props i) "actions") "updateDevLogging")
       && readable (field (props i) "statusDebug")
    then call (field (field (props i) "actions") "updateDevLogging")
              [js_not (field (field (props i) "statusDebug") "logging")] i
    else Run i [] TypeError.
Proof.
  unfold toggle. rewrite bind_this_props, bind_get.
  destruct (readable (props i)) eqn:Ep.
  2:{ now rewrite (field_unreadable _ "actions" Ep). }
  rewrite bind_get.
  destruct (readable (field (props i) "actions")) eqn:Ea.
  2:{ now rewrite (field_unreadable _ "updateDevLogging" Ea). }
  rewrite bind_this_props, bind_get, Ep, bind_get.
  destruct (readable (field (props i) "statusDebug")).
  - rewrite andb_true_r.
    destruct (is_func _) eqn:Ef; [reflexivity|].
    now apply call_not_func.
  - now rewrite andb_false_r.
Qed.

Lemma rendered_run i :
  rendered i
  = if readable (props i) && readable (field (props i) "statusDebug")
    then match map_outcome (field (field (props i) "statusDebug") "logs") with
         | Returned blocks =>
             Some (panel
                     (truthy (field (field (props i) "statusDebug") "logging"))
                     (field (field (props i) "statusDebug") "levels")
                     blocks)
         | _ => None
         end
    else None.
Proof.
  unfold rendered. rewrite render_run. cbn [result].
  destruct (_ && _); [|reflexivity].
  destruct (map_outcome _); reflexivity.
Qed.

Lemma rendered_inv i t :
  rendered i = Some t ->
  exists items,
    field (field (props i) "statusDebug") "logs" = VArr items
    /\ t = panel (truthy (field (field (props i) "statusDebug") "logging"))
                 (field (field (props i) "statusDebug") "levels")
                 (mapi_from log_block 0 items).
Proof.
  rewrite rendered_run.
  destruct (_ && _); [|discriminate].
  destruct (field (field (props i) "statusDebug") "logs") as [| | | | | | |items|fs];
    simpl; try discriminate;
    try (destruct (is_func _); discriminate).
  intros [= <-]. now exists items.
Qed.





(* ================================================================== *)
(** ** Beyond the contract: any property bag *)
(* ================================================================== *)




(** X3. The glyph and the request agree on any property bag, boolean
    [logging] or not: when a click on the toggle control makes a call,
    either the pause glyph is shown and the call asks for [false], or the
    play glyph is shown and the call asks for [true]. *)
Theorem glyph_agrees_with_request (i : instance) (t : node)
        (f : string) (args : list value) :
  rendered i = Some t ->
  trace (toggle i) = [Call f args] ->
  (and_then (toggle_control t) glyph = Some AvPause /\ args = [VBool false])
  \/ (and_then (toggle_control t) glyph = Some AvPlay /\ args = [VBool true]).
Proof.
  intros Hr Ht. destruct (rendered_inv i t Hr) as (items & _ & ->).
  rewrite toggle_run in Ht.
  destruct (_ && _); [|discriminate].
  destruct (field (field (props i) "actions") "updateDevLogging");
    try discriminate.
  simpl in Ht. injection Ht as _ <-. unfold js_not.
  destruct (truthy _); [left | right]; split; reflexivity.
Qed.

Lemma glyph_agrees_with_request_witness :
  rendered (mount_props
              (props_of (actions_value sample_actions)
                 (statusDebug_of (VStr "") (VNum 1) (VArr []))))
  = Some (panel true (VStr "") [])
  /\ (and_then (toggle_control (panel true (VStr "") [])) glyph = Some AvPause
      /\ [VBool false] = [VBool false]
      \/ and_then (toggle_control (panel true (VStr "") [])) glyph = Some AvPlay
         /\ [VBool false] = [VBool true]).
Proof.
  split; [reflexivity|].
  apply (glyph_agrees_with_request
           (mount_props
              (props_of (actions_value sample_actions)
                 (statusDebug_of (VStr "") (VNum 1) (VArr []))))
           (panel true (VStr "") [])
           "updateDevLogging" [VBool false]); reflexivity.
Defined.


(** X5. [toggle] calls [actions.updateDevLogging] once when it is a
    function and [statusDebug] can be read from; the argument is always a
    boolean, the negation of the truthiness of [logging].  When
    [statusDebug] is missing the handler throws before any call is made,
    and so it does when the callable is not a function. *)
Theorem toggle_outcome (i : instance) :
  toggle i
  = match field (field (props i) "actions") "updateDevLogging" with
    | VFun name =>
        if readable (field (props i) "statusDebug")
        then Run i
               [Call name
                  [VBool (negb (truthy (field (field (props i) "statusDebug")
                                              "logging")))]]
               (Returned tt)
        else Run i [] TypeError
    | _ => Run i [] TypeError
    end.
Proof.
  rewrite toggle_run.
  destruct (field (field (props i) "actions") "updateDevLogging");
    reflexivity.
Qed.

(** X6. The tree does not depend on [actions]: two bags that agree on
    [statusDebug] (and are both readable or both not) render alike. *)
Theorem render_ignores_actions (i j : instance) :
  readable (props i) = readable (props j) ->
  field (props i) "statusDebug" = field (props j) "statusDebug" ->
  result (render i) = result (render j).
Proof.
  intros Hp Hsd. rewrite !render_run. cbn [result].
  now rewrite Hp, Hsd.
Qed.

Lemma render_ignores_actions_witness :
  readable (props (mount streaming_state sample_actions))
  = readable (VObj [("statusDebug", statusDebug_value streaming_state)])
  /\ result (render (mount streaming_state sample_actions))
  = result (render (mount_props
                      (VObj [("statusDebug",
                              statusDebug_value streaming_state)]))).
Proof.
  split; [reflexivity|].
  apply (render_ignores_actions
           (mount streaming_state sample_actions)
           (mount_props
              (VObj [("statusDebug", statusDebug_value streaming_state)])));
    reflexivity.
Defined.



(** X8. On any property bag of the announced shape the tree is read off
    the three members of [statusDebug]: the subheading is ["-"] for an
    empty [levels] and [levels] otherwise, the glyph follows [logging],
    and there is one block per entry of [logs], in order, holding the
    entry itself (a [null] entry included). *)
Theorem rendered_well_formed (i : instance) :
  well_formed (props i) = true ->
  exists lv b items t,
    field (field (props i) "statusDebug") "levels" = VStr lv
    /\ field (field (props i) "statusDebug") "logging" = VBool b
    /\ field (field (props i) "statusDebug") "logs" = VArr items
    /\ rendered i = Some t
    /\ subheading t
       = Some (Expr (VStr (if String.eqb lv "" then "-" else lv)))
    /\ and_then (toggle_control t) glyph
       = Some (if b then AvPause else AvPlay)
    /\ option_map (map block_text) (log_blocks t)
       = Some (map (fun entry => Some (Expr entry)) items).
Proof.
  intros H. destruct (well_formed_shape _ H) as (Hp & Hsd & items & Hlogs).
  unfold well_formed in H.
  repeat (apply andb_prop in H; destruct H as [H ?]).
  destruct (field (field (props i) "statusDebug") "levels")
    as [| | | | |lv| | |] eqn:Elv; try discriminate.
  destruct (field (field (props i) "statusDebug") "logging")
    as [| |b| | | | | |] eqn:Elg; try discriminate.
  exists lv, b, items, (panel b (VStr lv) (mapi_from log_block 0 items)).
  repeat split.
  - exact Hlogs.
  - rewrite rendered_run, Hp, Hsd, Hlogs, Elv, Elg. reflexivity.
  - change (subheading (panel b (VStr lv) (mapi_from log_block 0 items)))
      with (Some (Expr (js_or (VStr lv) (VStr "-")))).
    unfold js_or, truthy.
    destruct (String.eqb lv ""); reflexivity.
  - change (log_blocks (panel b (VStr lv) (mapi_from log_block 0 items)))
      with (Some (mapi_from log_block 0 items)).
    cbn [option_map]. f_equal.
    now apply mapi_from_map.
Qed.

Lemma rendered_well_formed_witness :
  well_formed (props (mount_props crowded_props)) = true
  /\ exists lv b items t,
       field (field crowded_props "statusDebug") "levels" = VStr lv
       /\ field (field crowded_props "statusDebug") "logging" = VBool b
       /\ field (field crowded_props "statusDebug") "logs" = VArr items
       /\ rendered (mount_props crowded_props) = Some t
       /\ subheading t
          = Some (Expr (VStr (if String.eqb lv "" then "-" else lv)))
       /\ and_then (toggle_control t) glyph
          = Some (if b then AvPause else AvPlay)
       /\ option_map (map block_text) (log_blocks t)
          = Some (map (fun entry => Some (Expr entry)) items).
Proof.
  split; [reflexivity|].
  apply (rendered_well_formed (mount_props crowded_props)).
  reflexivity.
Defined.

(** X9. Whatever bag a returned tree was rendered from, its frame is the
    same: a [Container] with four children, the title ["Node Logs"] first,
    then the actions row with its two links (toggle, then clear with the
    replay glyph), the [h2] subheading, and the log list. *)
Theorem panel_skeleton (i : instance) (t : node) :
  rendered i = Some t ->
  type_of t = Some Container
  /\ length (children_of t) = 4
  /\ child_at 0 t
     = Some (Element ContainerTitle None [("title", Lit "Node Logs")] [])
  /\ and_then (actions_row t) (fun row => Some (length (children_of row)))
     = Some 2
  /\ and_then (toggle_control t) (fun c => attr_of c "onClick")
     = Some (OnClick ThisToggle)
  /\ clear_control t
     = Some (Element (Host "a") None [("onClick", OnClick ThisClear)]
               [Element AvReplay None [] []])
  /\ and_then (child_at 2 t) type_of = Some (Host "h2")
  /\ and_then (child_at 3 t) (fun d => attr_of d "className")
     = Some (Style "logs").
Proof.
  intros Hr. destruct (rendered_inv i t Hr) as (items & _ & ->).
  repeat split.
Qed.

Lemma panel_skeleton_witness :
  rendered (mount_props lax_props)
  = Some (panel true (VNum 0) [log_block (VStr "x") 0])
  /\ child_at 0 (panel true (VNum 0) [log_block (VStr "x") 0])
     = Some (Element ContainerTitle None [("title", Lit "Node Logs")] []).
Proof.
  split; [reflexivity|].
  apply (panel_skeleton (mount_props lax_props)
           (panel true (VNum 0) [log_block (VStr "x") 0])).
  reflexivity.
Defined.





(** X12. Under one snapshot, clicks on the two controls in any order make
    one call per click, in click order, each the request of its control:
    a [clear] in between does not change what [toggle] asks for, and the
    instance comes back unchanged. *)
Theorem clicks_in_any_order (st : DebugState) (a : ActionSet)
        (hs : list handler) :
  invoke_all hs (mount st a)
  = Run (mount st a) (map (request st a) hs) (Returned tt).
Proof.
  induction hs as [|h rest IH]; [reflexivity|].
  cbn [invoke_all map]. unfold bind at 1.
  assert (Hh : invoke h (mount st a)
               = Run (mount st a) [request st a h] (Returned tt)).
  { destruct h; reflexivity. }
  rewrite Hh. cbn [result final trace]. rewrite IH. reflexivity.
Qed.
